(** * NewsCard: a verified model of [src/components/NewsCard.tsx]

    The component is a function from a five-field property record to a
    React element tree.  The tree is modelled as data ([JSX.Node]); the one
    computation in the component, [new Date(publicationDate).toLocaleDateString()],
    is modelled on the ECMAScript time arithmetic ([ECMADate]), with the
    parts the language leaves to the host environment (default locale, local
    time zone, non-standard date strings) gathered in a [Host] record. *)

From Stdlib Require Import ZArith List Bool Lia.
From Stdlib Require Import Strings.String Strings.Ascii Numbers.DecimalString.
Import ListNotations.

Local Open Scope string_scope.

(* ================================================================== *)
(** ** React element trees *)
(* ================================================================== *)

Module JSX.

(** The components imported at the top of the file.  They are element
    types here: [NewsCard] builds elements of these types and does not
    call them. *)
Inductive Component : Type :=
| Card | CardHeader | CardContent   (* "@/components/ui/card" *)
| Badge                             (* "@/components/ui/badge" *)
| Image.                            (* "next/image" *)

Inductive ElemType : Type :=
| Intrinsic (tag : string)          (* <div>, <h3>, <p>, <span> *)
| Comp (c : Component).

(** An attribute value: a string ([className="..."], [src={imageUrl}]) or
    the boolean [true] of a bare attribute ([fill], [priority]). *)
Inductive PropVal (A : Type) : Type :=
| PStr (a : A)
| PBool (b : bool).

(** A node is a text child ([{title}]) or an element with its attributes
    in source order and its children.  The type [A] of string values is
    a parameter, so that one template serves both for rendering
    ([A := string]) and for tracking where each value comes from. *)
#[warnings="-register-all"]
Inductive Node (A : Type) : Type :=
| Text (a : A)
| Elem (ty : ElemType) (props : list (string * PropVal A))
       (children : list (Node A)).

Arguments PStr {A} a.
Arguments PBool {A} b.
Arguments Text {A} a.
Arguments Elem {A} ty props children.

Definition Component_eqb (c d : Component) : bool :=
  match c, d with
  | Card, Card | CardHeader, CardHeader | CardContent, CardContent
  | Badge, Badge | Image, Image => true
  | _, _ => false
  end.

Definition ElemType_eqb (s t : ElemType) : bool :=
  match s, t with
  | Intrinsic a, Intrinsic b => String.eqb a b
  | Comp c, Comp d => Component_eqb c d
  | _, _ => false
  end.

Section Access.
Context {A : Type}.

Definition props (n : Node A) : list (string * PropVal A) :=
  match n with Text _ => [] | Elem _ ps _ => ps end.

Definition children (n : Node A) : list (Node A) :=
  match n with Text _ => [] | Elem _ _ cs => cs end.

Definition hasType (t : ElemType) (n : Node A) : bool :=
  match n with Text _ => false | Elem ty _ _ => ElemType_eqb ty t end.

(** First attribute of that name. *)
Fixpoint lookup (name : string) (ps : list (string * PropVal A))
  : option (PropVal A) :=
  match ps with
  | [] => None
  | (k, v) :: ps' => if String.eqb k name then Some v else lookup name ps'
  end.

Definition prop (name : string) (n : Node A) : option (PropVal A) :=
  lookup name (props n).

Definition child (i : nat) (n : Node A) : option (Node A) :=
  nth_error (children n) i.

(** The node and everything below it, in document order. *)
Fixpoint descendants (n : Node A) : list (Node A) :=
  n :: match n with
       | Text _ => []
       | Elem _ _ cs =>
           (fix go (l : list (Node A)) : list (Node A) :=
              match l with
              | [] => []
              | c :: l' => (descendants c ++ go l')%list
              end) cs
       end.

Definition elementsOfType (t : ElemType) (n : Node A) : list (Node A) :=
  filter (hasType t) (descendants n).

(** The string values an element carries itself: attribute strings,
    then its text children. *)
Definition propStrings (ps : list (string * PropVal A)) : list A :=
  flat_map (fun kv => match snd kv with PStr a => [a] | PBool _ => [] end) ps.

(** Every string value in a subtree, in document order. *)
Fixpoint values (n : Node A) : list A :=
  match n with
  | Text a => [a]
  | Elem _ ps cs =>
      (propStrings ps ++
       (fix go (l : list (Node A)) : list A :=
          match l with
          | [] => []
          | c :: l' => values c ++ go l'
          end) cs)%list
  end.

(** Replace the value of every attribute called [name]. *)
Definition setProp (name : string) (v : PropVal A)
           (ps : list (string * PropVal A)) : list (string * PropVal A) :=
  map (fun kv => if String.eqb (fst kv) name then (fst kv, v) else kv) ps.

(** Replace attribute [name] on every element of type [t]. *)
Fixpoint setPropOn (t : ElemType) (name : string) (v : PropVal A)
         (n : Node A) : Node A :=
  match n with
  | Text a => Text a
  | Elem ty ps cs =>
      Elem ty (if ElemType_eqb ty t then setProp name v ps else ps)
           (map (setPropOn t name v) cs)
  end.
End Access.

(** The text a subtree shows: its text children concatenated (the DOM's
    [textContent]). *)
Fixpoint textContent (n : Node string) : string :=
  match n with
  | Text s => s
  | Elem _ _ cs =>
      (fix go (l : list (Node string)) : string :=
         match l with
         | [] => ""
         | c :: l' => textContent c ++ go l'
         end) cs
  end.

(** The class names of a [className] string: its maximal runs of
    characters other than the space. *)
Fixpoint tokens_aux (cur : string) (s : string) : list string :=
  match s with
  | EmptyString => if String.eqb cur "" then [] else [cur]
  | String c s' =>
      if Ascii.eqb c " "%char
      then (if String.eqb cur "" then tokens_aux "" s'
            else cur :: tokens_aux "" s')
      else tokens_aux (cur ++ String c EmptyString) s'
  end.

Definition tokens (s : string) : list string := tokens_aux "" s.

Definition classList (n : Node string) : list string :=
  match prop "className" n with
  | Some (PStr s) => tokens s
  | _ => []
  end.

(** The [line-clamp-*] utilities among the classes of a node. *)
Definition clampClasses (n : Node string) : list string :=
  filter (String.prefix "line-clamp-") (classList n).

End JSX.

Import JSX.

(* ================================================================== *)
(** ** The template of the component *)
(* ================================================================== *)

(** [interface NewsCardProps] *)
Record NewsCardProps : Type := mkProps {
  title : string;
  imageUrl : string;
  summary : string;
  publicationDate : string;
  source : string
}.

Section Template.
Context {A : Type}.
(** [lit] injects the string literals of the source; [toDateText] stands
    for [new Date(_).toLocaleDateString()]. *)
Variable lit : string -> A.
Variable toDateText : A -> A.

(** The JSX expression returned by [NewsCard], element by element.
    Line breaks and indentation between JSX elements produce no child. *)
Definition NewsCardJSX (title imageUrl summary publicationDate source : A)
  : Node A :=
  Elem (Comp Card)
    [("className", PStr (lit "overflow-hidden transition-all duration-300 hover:scale-[1.02] bg-white/10 backdrop-blur-lg border-white/20"))]
    [ Elem (Intrinsic "div")
        [("className", PStr (lit "relative h-48 w-full"))]
        [ Elem (Comp Image)
            [ ("src", PStr imageUrl);
              ("alt", PStr title);
              ("fill", PBool true);
              ("className", PStr (lit "object-cover"));
              ("priority", PBool true) ]
            [] ];
      Elem (Comp CardHeader)
        [("className", PStr (lit "text-white"))]
        [ Elem (Intrinsic "h3")
            [("className", PStr (lit "text-xl font-bold line-clamp-2"))]
            [ Text title ] ];
      Elem (Comp CardContent)
        [("className", PStr (lit "space-y-4"))]
        [ Elem (Intrinsic "p")
            [("className", PStr (lit "text-gray-300 line-clamp-3"))]
            [ Text summary ];
          Elem (Intrinsic "div")
            [("className", PStr (lit "flex justify-between items-center"))]
            [ Elem (Comp Badge)
                [ ("variant", PStr (lit "secondary"));
                  ("className", PStr (lit "bg-white/20 text-white hover:bg-white/30")) ]
                [ Text source ];
              Elem (Intrinsic "span")
                [("className", PStr (lit "text-sm text-gray-400"))]
                [ Text (toDateText publicationDate) ] ] ] ].
End Template.


(* ================================================================== *)
(** ** ECMAScript dates *)
(* ================================================================== *)

Module ECMADate.
Local Open Scope Z_scope.

(** *** Time values (ECMA-262, Time Values and Time Range)

    A time value is a number of milliseconds since 1970-01-01T00:00:00Z, or
    NaN; [option Z] with [None] for NaN.  [/] and [mod] on [Z] round to
    minus infinity for a positive divisor, as the standard's floor and
    modulo do. *)

Definition msPerDay : Z := 86400000.

Definition Day (t : Z) : Z := t / msPerDay.

Definition DaysInYear (y : Z) : Z :=
  if negb (y mod 4 =? 0) then 365
  else if negb (y mod 100 =? 0) then 366
  else if negb (y mod 400 =? 0) then 365
  else 366.

Definition DayFromYear (y : Z) : Z :=
  365 * (y - 1970) + (y - 1969) / 4 - (y - 1901) / 100 + (y - 1601) / 400.

Definition TimeFromYear (y : Z) : Z := msPerDay * DayFromYear y.

(** The standard defines [YearFromTime(t)] as the largest integer [y] with
    [TimeFromYear(y) <= t].  It is computed here from the day number: the
    mean Gregorian year (146097 days in 400 years) gives a year at most one
    off, which the two comparisons put right ([YearFromTime_spec],
    [YearFromTime_largest]). *)
Definition YearFromDay (d : Z) : Z :=
  let y := 1970 + (400 * d) / 146097 in
  if DayFromYear (y + 1) <=? d then y + 1
  else if d <? DayFromYear y then y - 1
  else y.

Definition YearFromTime (t : Z) : Z := YearFromDay (Day t).

Definition InLeapYear (t : Z) : Z :=
  if DaysInYear (YearFromTime t) =? 366 then 1 else 0.

Definition DayWithinYear (t : Z) : Z := Day t - DayFromYear (YearFromTime t).

(** Months are numbered from 0 (January) to 11 (December). *)
Definition MonthFromTime (t : Z) : Z :=
  let d := DayWithinYear t in
  let l := InLeapYear t in
  if d <? 31 then 0
  else if d <? 59 + l then 1
  else if d <? 90 + l then 2
  else if d <? 120 + l then 3
  else if d <? 151 + l then 4
  else if d <? 181 + l then 5
  else if d <? 212 + l then 6
  else if d <? 243 + l then 7
  else if d <? 273 + l then 8
  else if d <? 304 + l then 9
  else if d <? 334 + l then 10
  else 11.

Definition DateFromTime (t : Z) : Z :=
  let d := DayWithinYear t in
  let l := InLeapYear t in
  match MonthFromTime t with
  | 0 => d + 1
  | 1 => d - 30
  | 2 => d - 58 - l
  | 3 => d - 89 - l
  | 4 => d - 119 - l
  | 5 => d - 150 - l
  | 6 => d - 180 - l
  | 7 => d - 211 - l
  | 8 => d - 242 - l
  | 9 => d - 272 - l
  | 10 => d - 303 - l
  | _ => d - 333 - l
  end.

(** Days of the year before the first of month [m] (0 to 11; 12 gives the
    length of the year), [l] being 1 in a leap year and 0 otherwise. *)
Definition daysBeforeMonth (l m : Z) : Z :=
  match m with
  | 0 => 0
  | 1 => 31
  | 2 => 59 + l
  | 3 => 90 + l
  | 4 => 120 + l
  | 5 => 151 + l
  | 6 => 181 + l
  | 7 => 212 + l
  | 8 => 243 + l
  | 9 => 273 + l
  | 10 => 304 + l
  | 11 => 334 + l
  | _ => 365 + l
  end.

Definition leapDays (y : Z) : Z := DaysInYear y - 365.

(** [MakeDay(year, month, date)]: the day number of the first of the month
    plus [date - 1]. *)
Definition MakeDay (year month date : Z) : Z :=
  let ym := year + month / 12 in
  let mn := month mod 12 in
  DayFromYear ym + daysBeforeMonth (leapDays ym) mn + date - 1.

Definition MakeDate (day time : Z) : Z := day * msPerDay + time.

Definition TimeClip (t : Z) : option Z :=
  if Z.abs t <=? 8640000000000000 then Some t else None.

(** *** The date-only forms of the Date Time String Format

    [YYYY], [YYYY-MM] and [YYYY-MM-DD].  "When the UTC offset
    representation is absent, date-only forms are interpreted as a UTC
    time": the result is midnight UTC at the start of that day. *)

Definition digit (c : ascii) : option Z :=
  let n := Z.of_N (N_of_ascii c) in
  if (48 <=? n) && (n <=? 57) then Some (n - 48) else None.

Fixpoint digits (acc : Z) (l : list ascii) : option Z :=
  match l with
  | [] => Some acc
  | c :: l' =>
      match digit c with
      | Some d => digits (10 * acc + d) l'
      | None => None
      end
  end.

Definition isDash (c : ascii) : bool := Ascii.eqb c "-"%char.

(** Length of month [m] (1 to 12) of year [y]. *)
Definition DaysInMonth (y m : Z) : Z :=
  daysBeforeMonth (leapDays y) m - daysBeforeMonth (leapDays y) (m - 1).

(** Midnight UTC of the calendar date, when month and day are in range. *)
Definition utcMidnight (y m d : Z) : option Z :=
  if (1 <=? m) && (m <=? 12) && (1 <=? d) && (d <=? DaysInMonth y m)
  then Some (MakeDate (MakeDay y (m - 1) d) 0)
  else None.

Definition parseDateOnly (s : string) : option Z :=
  match list_ascii_of_string s with
  | [y1; y2; y3; y4] =>
      match digits 0 [y1; y2; y3; y4] with
      | Some y => utcMidnight y 1 1
      | None => None
      end
  | [y1; y2; y3; y4; s1; m1; m2] =>
      match digits 0 [y1; y2; y3; y4], digits 0 [m1; m2] with
      | Some y, Some m => if isDash s1 then utcMidnight y m 1 else None
      | _, _ => None
      end
  | [y1; y2; y3; y4; s1; m1; m2; s2; d1; d2] =>
      match digits 0 [y1; y2; y3; y4], digits 0 [m1; m2], digits 0 [d1; d2] with
      | Some y, Some m, Some d =>
          if isDash s1 && isDash s2 then utcMidnight y m d else None
      | _, _, _ => None
      end
  | _ => None
  end.

(** *** The host environment

    What the language leaves to the implementation, and what the component
    reads from its surroundings when it formats the date. *)
Record Host : Type := mkHost {
  (** [Date.parse] on a string that is not a well-formed, in-range
      date-only form: "the function may fall back to any
      implementation-specific heuristics or implementation-specific date
      formats" (the date-time forms are left here too). *)
  fallbackParse : string -> option Z;
  (** [LocalTZA(t, true)]: the offset of the host's time zone from UTC, in
      milliseconds, at UTC time [t]. *)
  LocalTZA : Z -> Z;
  (** The default locale's short date for a calendar date given as year,
      month (1 to 12) and day of the month. *)
  formatShortDate : Z -> Z -> Z -> string
}.

(** [Date.parse(s)] *)
Definition Date_parse (h : Host) (s : string) : option Z :=
  match parseDateOnly s with
  | Some t => Some t
  | None => fallbackParse h s
  end.

(** [new Date(s)] for a string [s]: the time value of the new object. *)
Definition newDate (h : Host) (s : string) : option Z :=
  match Date_parse h s with
  | Some t => TimeClip t
  | None => None
  end.

Definition LocalTime (h : Host) (t : Z) : Z := t + LocalTZA h t.

(** [Date.prototype.toLocaleDateString()] with no arguments (ECMA-402):
    "If x is NaN, return "Invalid Date""; otherwise the year, month and day
    of the local time, formatted for the default locale.  It does not
    throw. *)
Definition toLocaleDateString (h : Host) (tv : option Z) : string :=
  match tv with
  | None => "Invalid Date"
  | Some t =>
      let lt := LocalTime h t in
      formatShortDate h (YearFromTime lt) (MonthFromTime lt + 1) (DateFromTime lt)
  end.

(** The expression [new Date(s).toLocaleDateString()]. *)
Definition dateString (h : Host) (s : string) : string :=
  toLocaleDateString h (newDate h s).

(** *** Sample hosts *)

Definition decimal (z : Z) : string := NilEmpty.string_of_int (Z.to_int z).

(** en-US: month/day/year. *)
Definition enUS (y m d : Z) : string :=
  (decimal m ++ "/" ++ decimal d ++ "/" ++ decimal y)%string.

(** de-DE: day.month.year. *)
Definition deDE (y m d : Z) : string :=
  (decimal d ++ "." ++ decimal m ++ "." ++ decimal y)%string.

(** A US-locale host on UTC. *)
Definition hostUTC : Host :=
  {| fallbackParse := fun _ => None;
     LocalTZA := fun _ => 0;
     formatShortDate := enUS |}.

(** A US-locale host five hours behind UTC (US Eastern Standard Time). *)
Definition hostEST : Host :=
  {| fallbackParse := fun _ => None;
     LocalTZA := fun _ => -18000000;
     formatShortDate := enUS |}.

(** A German-locale host one hour ahead of UTC (Central European Time). *)
Definition hostCET : Host :=
  {| fallbackParse := fun _ => None;
     LocalTZA := fun _ => 3600000;
     formatShortDate := deDE |}.

End ECMADate.

Import ECMADate.

(* ================================================================== *)
(** ** The component *)
(* ================================================================== *)

(** [export default function NewsCard({title, imageUrl, summary,
    publicationDate, source})], run on host [h]. *)
Definition NewsCard (h : Host) (p : NewsCardProps) : Node string :=
  NewsCardJSX (fun s => s) (dateString h)
              (title p) (imageUrl p) (summary p) (publicationDate p) (source p).

(** The text of the elements of a given type, one entry per element. *)
Definition textOf (t : ElemType) (n : Node string) : list string :=
  map textContent (elementsOfType t n).

(** The date is the text of the card's [<span>]. *)
Definition dateText (n : Node string) : list string :=
  textOf (Intrinsic "span") n.

(** The source is the text of the card's [<Badge>]. *)
Definition badgeText (n : Node string) : list string :=
  textOf (Comp Badge) n.

(** *** Regions of the card

    The children of [<Card>], in order: the [<div>] holding the image, the
    [<CardHeader>] and the [<CardContent>]. *)
Inductive Region : Type := Media | Header | Body.

Definition regionIndex (r : Region) : nat :=
  match r with Media => 0 | Header => 1 | Body => 2 end%nat.

Definition region {A : Type} (r : Region) (n : Node A) : option (Node A) :=
  child (regionIndex r) n.

(** *** Where the values of the tree come from

    The template instantiated on symbolic values: each string of the tree
    is a literal of the source, a field of the input taken as it is, or
    the date text computed from one. *)
Inductive Field : Type :=
| FTitle | FImageUrl | FSummary | FPublicationDate | FSource.

Inductive Origin : Type :=
| Literal (s : string)
| FromField (f : Field)
| DateTextOf (o : Origin).

Definition NewsCardFlow : Node Origin :=
  NewsCardJSX Literal DateTextOf
              (FromField FTitle) (FromField FImageUrl) (FromField FSummary)
              (FromField FPublicationDate) (FromField FSource).

Definition field (f : Field) (p : NewsCardProps) : string :=
  match f with
  | FTitle => title p
  | FImageUrl => imageUrl p
  | FSummary => summary p
  | FPublicationDate => publicationDate p
  | FSource => source p
  end.

(** The string a symbolic value stands for, on host [h] and input [p]. *)
Fixpoint resolve (h : Host) (p : NewsCardProps) (o : Origin) : string :=
  match o with
  | Literal s => s
  | FromField f => field f p
  | DateTextOf o' => dateString h (resolve h p o')
  end.

Definition mapProps {A B : Type} (f : A -> B)
           (ps : list (string * PropVal A)) : list (string * PropVal B) :=
  map (fun kv => (fst kv,
                  match snd kv with PStr a => PStr (f a) | PBool b => PBool b end))
      ps.

Fixpoint mapNode {A B : Type} (f : A -> B) (n : Node A) : Node B :=
  match n with
  | Text a => Text (f a)
  | Elem ty ps cs => Elem ty (mapProps f ps) (map (mapNode f) cs)
  end.

Definition Field_eqb (f g : Field) : bool :=
  match f, g with
  | FTitle, FTitle | FImageUrl, FImageUrl | FSummary, FSummary
  | FPublicationDate, FPublicationDate | FSource, FSource => true
  | _, _ => false
  end.

Fixpoint dependsOn (f : Field) (o : Origin) : bool :=
  match o with
  | Literal _ => false
  | FromField g => Field_eqb f g
  | DateTextOf o' => dependsOn f o'
  end.

(** A value that is computed rather than copied. *)
Definition isComputed (o : Origin) : bool :=
  match o with DateTextOf _ => true | _ => false end.

(** How many values of a subtree come from field [f]. *)
Definition occurrences (f : Field) (n : Node Origin) : nat :=
  List.length (filter (dependsOn f) (values n)).

Definition regionOccurrences (f : Field) (r : Region) : nat :=
  match region r NewsCardFlow with
  | Some n => occurrences f n
  | None => 0%nat
  end.

(** The regions of the card that field [f] is mapped to. *)
Definition regionsOf (f : Field) : list Region :=
  filter (fun r => Nat.ltb 0 (regionOccurrences f r)) [Media; Header; Body].

(** The string values of a region of a rendered card. *)
Definition regionValues {A : Type} (r : Region) (n : Node A) : list A :=
  match region r n with
  | Some m => values m
  | None => []
  end.

(** *** Sample inputs *)

Definition sampleArticle : NewsCardProps :=
  {| title := "Markets rally";
     imageUrl := "https://example.com/markets.jpg";
     summary := "Stocks rose on Monday.";
     publicationDate := "2024-01-15";
     source := "Reuters" |}.

Definition withPublicationDate (d : string) (p : NewsCardProps) : NewsCardProps :=
  {| title := title p; imageUrl := imageUrl p; summary := summary p;
     publicationDate := d; source := source p |}.

Definition withImageUrl (u : string) (p : NewsCardProps) : NewsCardProps :=
  {| title := title p; imageUrl := u; summary := summary p;
     publicationDate := publicationDate p; source := source p |}.

(** The UTC time value of 2024-01-15T00:00:00Z. *)
Definition t_2024_01_15 : Z := 1705276800000.

(** *** Date-only strings, written out

    [isoDate y m d] is the ten-character string [YYYY-MM-DD] of a calendar
    date with a year from 0 to 9999, digits padded with zeros: the form a
    data source gives a date without a time in. *)
Definition digitChar (k : Z) : ascii := ascii_of_N (Z.to_N (48 + k)).

Definition pad2 (n : Z) : string :=
  String (digitChar (n / 10)) (String (digitChar (n mod 10)) "").

Definition pad4 (n : Z) : string :=
  String (digitChar (n / 1000))
    (String (digitChar (n / 100 mod 10))
       (String (digitChar (n / 10 mod 10))
          (String (digitChar (n mod 10)) ""))).

Definition isoDate (y m d : Z) : string :=
  pad4 y ++ "-" ++ pad2 m ++ "-" ++ pad2 d.

(** A year, month (1 to 12) and day that exist in the calendar. *)
Definition validDate (y m d : Z) : Prop :=
  (0 <= y <= 9999 /\ 1 <= m <= 12 /\ 1 <= d <= DaysInMonth y m)%Z.

(** The calendar date before a given one. *)
Definition dayBefore (y m d : Z) : Z * Z * Z :=
  if (1 <? d)%Z then (y, m, d - 1)%Z
  else if (1 <? m)%Z then (y, m - 1, DaysInMonth y (m - 1))%Z
  else (y - 1, 12, 31)%Z.

(** *** What of a card is fixed

    The card with what comes from the input taken out: every text child
    and the [src] and [alt] attributes emptied.  Element types, nesting,
    class names and the other attributes stay. *)
Definition blankProps (ps : list (string * PropVal string))
  : list (string * PropVal string) :=
  map (fun kv => if String.eqb (fst kv) "src" || String.eqb (fst kv) "alt"
                 then (fst kv, PStr "") else kv) ps.

Fixpoint blank (n : Node string) : Node string :=
  match n with
  | Text _ => Text ""
  | Elem ty ps cs => Elem ty (blankProps ps) (map blank cs)
  end.

Definition nodeType {A : Type} (n : Node A) : option ElemType :=
  match n with Text _ => None | Elem ty _ _ => Some ty end.

(** *** Sizing utilities of the style sheet

    The class names that size a box.  [w-full] and [h-full] are 100% of
    the containing block; [w-N] and [h-N], for a number [N] of the spacing
    scale, are [N] quarters of a rem ([h-48] is [height: 12rem]).  An
    [aspect-*] utility sets the ratio of width to height instead. *)
Inductive Extent : Type :=
| Quarters (n : Z)     (* n quarters of a rem *)
| Percent (k : Z).     (* k percent of the containing block *)

Definition sizeUtility (pre c : string) : option Extent :=
  if String.prefix pre c then
    let rest := substring (String.length pre)
                          (String.length c - String.length pre) c in
    if String.eqb rest "full" then Some (Percent 100)
    else if String.eqb rest "" then None
    else option_map Quarters (digits 0 (list_ascii_of_string rest))
  else None.

Definition sizes (pre : string) (n : Node string) : list Extent :=
  flat_map (fun c => match sizeUtility pre c with
                     | Some e => [e]
                     | None => []
                     end)
           (classList n).

Definition widths (n : Node string) : list Extent := sizes "w-" n.

Definition heights (n : Node string) : list Extent := sizes "h-" n.

(** The [aspect-*] utilities among the classes of a node. *)
Definition aspectClasses (n : Node string) : list string :=
  filter (String.prefix "aspect-") (classList n).

Definition isFixed (e : Extent) : bool :=
  match e with Quarters _ => true | Percent _ => false end.

(** A box keeps one ratio of width to height, whatever it is put in, when
    an [aspect-*] utility says so or when both its sides are fixed
    lengths. *)
Definition hasFixedAspect (n : Node string) : bool :=
  match aspectClasses n with
  | _ :: _ => true
  | [] =>
      match widths n, heights n with
      | [w], [h] => isFixed w && isFixed h
      | _, _ => false
      end
  end.

(** An extent in pixels, for a root font size [root] (pixels per rem) and
    the matching side [container] of the containing block. *)
Definition extentPx (root container : Z) (e : Extent) : Z :=
  match e with
  | Quarters n => (n * root / 4)%Z
  | Percent k => (container * k / 100)%Z
  end.

(** Width and height of a node sized by one width and one height utility,
    inside a containing block of [cw] by [ch] pixels. *)
Definition boxOf (root cw ch : Z) (n : Node string) : option (Z * Z) :=
  match widths n, heights n with
  | [w], [h] => Some (extentPx root cw w, extentPx root ch h)
  | _, _ => None
  end.

(* ================================================================== *)
(** ** Proof automation *)
(* ================================================================== *)

(** Floor division and modulo by a constant, reduced to linear arithmetic. *)
Ltac floor_arith := Z.div_mod_to_equations; lia.

(** Evaluate [daysBeforeMonth] at a given month, leaving sums alone. *)
Ltac eval_month_table :=
  repeat match goal with
         | H : context [daysBeforeMonth ?l ?m] |- _ =>
             let v := eval vm_compute in (daysBeforeMonth l m) in
             change (daysBeforeMonth l m) with v in H
         | |- context [daysBeforeMonth ?l ?m] =>
             let v := eval vm_compute in (daysBeforeMonth l m) in
             change (daysBeforeMonth l m) with v
         end.

(** Settle each comparison of the goal from the hypotheses. *)
Ltac decide_ltb :=
  repeat first [ rewrite (proj2 (Z.ltb_lt _ _)) by lia
               | rewrite (proj2 (Z.ltb_ge _ _)) by lia ];
  cbv beta iota.

(* ================================================================== *)
(** ** The calendar arithmetic agrees with the standard's definitions *)
(* ================================================================== *)

Section Calendar.
Local Open Scope Z_scope.

Lemma DayFromYear_step (y : Z) :
  DayFromYear (y + 1) = DayFromYear y + DaysInYear y.
Proof.
  unfold DayFromYear, DaysInYear.
  destruct (Z.eqb_spec (y mod 4) 0), (Z.eqb_spec (y mod 100) 0),
           (Z.eqb_spec (y mod 400) 0); cbn [negb]; floor_arith.
Qed.

Lemma DayFromYear_mono (a b : Z) : a <= b -> DayFromYear a <= DayFromYear b.
Proof. unfold DayFromYear. intros Hab. floor_arith. Qed.

(** The year computed from a day number contains that day. *)
Lemma YearFromDay_spec (d : Z) :
  DayFromYear (YearFromDay d) <= d < DayFromYear (YearFromDay d + 1).
Proof.
  unfold YearFromDay.
  set (y := 1970 + 400 * d / 146097).
  destruct (Z.leb_spec (DayFromYear (y + 1)) d) as [Hup | Hup].
  - split; [exact Hup |].
    subst y. unfold DayFromYear in *. floor_arith.
  - destruct (Z.ltb_spec d (DayFromYear y)) as [Hlo | Hlo].
    + split.
      * subst y. unfold DayFromYear in *. floor_arith.
      * replace (y - 1 + 1) with y by lia. exact Hlo.
    + split; assumption.
Qed.

Lemma YearFromDay_unique (d y : Z) :
  DayFromYear y <= d < DayFromYear (y + 1) -> YearFromDay d = y.
Proof.
  intros [Hlo Hhi].
  destruct (YearFromDay_spec d) as [Hlo' Hhi'].
  destruct (Z.lt_trichotomy (YearFromDay d) y) as [Hlt | [Heq | Hgt]].
  - pose proof (DayFromYear_mono (YearFromDay d + 1) y ltac:(lia)). lia.
  - exact Heq.
  - pose proof (DayFromYear_mono (y + 1) (YearFromDay d) ltac:(lia)). lia.
Qed.

(** [YearFromTime(t)] is a year [y] with [TimeFromYear(y) <= t] ... *)
Lemma YearFromTime_spec (t : Z) :
  TimeFromYear (YearFromTime t) <= t < TimeFromYear (YearFromTime t + 1).
Proof.
  unfold TimeFromYear, YearFromTime.
  pose proof (YearFromDay_spec (Day t)) as [Hlo Hhi].
  unfold Day, msPerDay in *. floor_arith.
Qed.

(** ... and the largest one. *)
Lemma YearFromTime_largest (t y : Z) :
  TimeFromYear y <= t -> y <= YearFromTime t.
Proof.
  intros Hy.
  destruct (Z.le_gt_cases y (YearFromTime t)) as [Hle | Hgt]; [exact Hle |].
  pose proof (YearFromTime_spec t) as [_ Hhi].
  pose proof (DayFromYear_mono (YearFromTime t + 1) y ltac:(lia)) as Hm.
  unfold TimeFromYear, msPerDay in *. lia.
Qed.

(** A local time less than a day after midnight UTC of day [day] is on
    that day; one less than a day before it is on the day before. *)
Lemma Day_east_of_midnight (day o : Z) :
  0 <= o < msPerDay -> Day (MakeDate day 0 + o) = day.
Proof. unfold Day, MakeDate, msPerDay. intros Ho. floor_arith. Qed.

Lemma Day_west_of_midnight (day o : Z) :
  - msPerDay <= o < 0 -> Day (MakeDate day 0 + o) = day - 1.
Proof. unfold Day, MakeDate, msPerDay. intros Ho. floor_arith. Qed.

(** Year, month and day of a local time depend on its day number only. *)
Lemma calendar_date_of_Day (t u : Z) :
  Day t = Day u ->
  YearFromTime t = YearFromTime u /\
  MonthFromTime t = MonthFromTime u /\
  DateFromTime t = DateFromTime u.
Proof.
  intros HD.
  assert (HY : YearFromTime t = YearFromTime u)
    by (unfold YearFromTime; now rewrite HD).
  assert (HM : MonthFromTime t = MonthFromTime u)
    by (unfold MonthFromTime, DayWithinYear, InLeapYear; now rewrite HD, HY).
  repeat split; [exact HY | exact HM |].
  unfold DateFromTime. rewrite HM.
  unfold DayWithinYear, InLeapYear. now rewrite HD, HY.
Qed.

(** A calendar date survives the trip through its UTC midnight. *)
Lemma civil_roundtrip (y m d t : Z) :
  utcMidnight y m d = Some t ->
  YearFromTime t = y /\ MonthFromTime t + 1 = m /\ DateFromTime t = d.
Proof.
  unfold utcMidnight.
  destruct (Z.leb_spec 1 m) as [Hm1 |]; [| discriminate].
  destruct (Z.leb_spec m 12) as [Hm2 |]; [| discriminate].
  destruct (Z.leb_spec 1 d) as [Hd1 |]; [| discriminate].
  destruct (Z.leb_spec d (DaysInMonth y m)) as [Hd2 |]; [| discriminate].
  cbn [andb]. intros [= <-].
  set (t := MakeDate (MakeDay y (m - 1) d) 0).
  assert (HDay : Day t = MakeDay y (m - 1) d)
    by (unfold t, Day, MakeDate, msPerDay; floor_arith).
  assert (Hq : (m - 1) / 12 = 0) by (apply Z.div_small; lia).
  assert (Hr : (m - 1) mod 12 = m - 1) by (apply Z.mod_small; lia).
  assert (Hyear : DaysInYear y = 365 + leapDays y) by (unfold leapDays; lia).
  assert (Hl : leapDays y = 0 \/ leapDays y = 1).
  { unfold leapDays, DaysInYear.
    destruct (y mod 4 =? 0), (y mod 100 =? 0), (y mod 400 =? 0); cbn; lia. }
  unfold DaysInMonth in Hd2. unfold MakeDay in HDay.
  rewrite Hq, Hr, Z.add_0_r in HDay.
  revert Hyear Hl Hd2 HDay. generalize (leapDays y). intros l Hyear Hl Hd2 HDay.
  assert (Hm : m = 1 \/ m = 2 \/ m = 3 \/ m = 4 \/ m = 5 \/ m = 6 \/ m = 7 \/
               m = 8 \/ m = 9 \/ m = 10 \/ m = 11 \/ m = 12) by lia.
  assert (HY : YearFromTime t = y).
  { unfold YearFromTime. rewrite HDay. apply YearFromDay_unique.
    rewrite DayFromYear_step, Hyear.
    clear - Hm Hl Hd1 Hd2.
    destruct Hl; subst l;
      repeat (destruct Hm as [Hm | Hm]); subst m; eval_month_table; lia. }
  assert (HW : DayWithinYear t = daysBeforeMonth l (m - 1) + d - 1)
    by (unfold DayWithinYear; rewrite HDay, HY; lia).
  assert (HL : InLeapYear t = l).
  { unfold InLeapYear. rewrite HY. destruct (Z.eqb_spec (DaysInYear y) 366); lia. }
  split; [exact HY |].
  unfold DateFromTime, MonthFromTime. rewrite HW, HL.
  clear - Hm Hl Hd1 Hd2. cbv zeta.
  destruct Hl; subst l;
    repeat (destruct Hm as [Hm | Hm]); subst m; eval_month_table;
    decide_ltb; split; lia.
Qed.

End Calendar.

(** The model run on a few dates. *)
Example parse_epoch : parseDateOnly "1970-01-01" = Some 0%Z.
Proof. vm_compute. reflexivity. Qed.

Example parse_leap_day : parseDateOnly "2024-02-29" = Some 1709164800000%Z.
Proof. vm_compute. reflexivity. Qed.

Example parse_no_leap_day : parseDateOnly "2023-02-29" = None.
Proof. vm_compute. reflexivity. Qed.

Example parse_year_month : parseDateOnly "2024-01" = Some 1704067200000%Z.
Proof. vm_compute. reflexivity. Qed.

Example parse_single_digit_month : parseDateOnly "2024-1-15" = None.
Proof. vm_compute. reflexivity. Qed.

Example new_year_seen_from_the_west :
  dateString hostEST "2000-01-01" = "12/31/1999".
Proof. vm_compute. reflexivity. Qed.

Example new_year_seen_from_the_east :
  dateString hostCET "2000-01-01" = "1.1.2000".
Proof. vm_compute. reflexivity. Qed.

(* ================================================================== *)
(** ** Dates written as [YYYY-MM-DD], seen from the host's time zone *)
(* ================================================================== *)

Section LocalDates.
Local Open Scope Z_scope.
Variable h : Host.

(** East of Greenwich (and on it) the local date of midnight UTC is the
    date written in the string. *)
Lemma local_date_east (y m d t : Z) :
  utcMidnight y m d = Some t ->
  0 <= LocalTZA h t < msPerDay ->
  toLocaleDateString h (Some t) = formatShortDate h y m d.
Proof.
  intros Ht Ho.
  destruct (civil_roundtrip y m d t Ht) as (HY & HM & HD).
  assert (Hday : Day (LocalTime h t) = Day t).
  { unfold utcMidnight in Ht.
    destruct (_ && _) in Ht; [| discriminate]. injection Ht as <-.
    unfold LocalTime. rewrite Day_east_of_midnight by exact Ho.
    symmetry. rewrite <- (Z.add_0_r (MakeDate _ 0)) at 1.
    apply Day_east_of_midnight. unfold msPerDay. lia. }
  destruct (calendar_date_of_Day _ _ Hday) as (EY & EM & ED).
  unfold toLocaleDateString. cbv zeta.
  now rewrite EY, EM, ED, HY, HM, HD.
Qed.

(** West of Greenwich it is the date of the day before. *)
Lemma local_date_west (y m d t y' m' d' : Z) :
  utcMidnight y m d = Some t ->
  utcMidnight y' m' d' = Some (t - msPerDay) ->
  - msPerDay <= LocalTZA h t < 0 ->
  toLocaleDateString h (Some t) = formatShortDate h y' m' d'.
Proof.
  intros Ht Ht' Ho.
  destruct (civil_roundtrip y' m' d' _ Ht') as (HY & HM & HD).
  assert (Hday : Day (LocalTime h t) = Day (t - msPerDay)).
  { unfold utcMidnight in Ht.
    destruct (_ && _) in Ht; [| discriminate]. injection Ht as <-.
    unfold LocalTime. rewrite Day_west_of_midnight by exact Ho.
    unfold Day, MakeDate, msPerDay.
    Z.div_mod_to_equations; lia. }
  destruct (calendar_date_of_Day _ _ Hday) as (EY & EM & ED).
  unfold toLocaleDateString. cbv zeta.
  now rewrite EY, EM, ED, HY, HM, HD.
Qed.

(** The string of the specification's example is a date-only form: every
    host reads it as midnight UTC of that day. *)
Lemma newDate_2024_01_15 : newDate h "2024-01-15" = Some t_2024_01_15.
Proof.
  unfold newDate, Date_parse.
  replace (parseDateOnly "2024-01-15") with (Some t_2024_01_15)
    by (vm_compute; reflexivity).
  reflexivity.
Qed.

(** "not-a-date" is no date-only form: what it parses to is the host's
    business. *)
Lemma not_a_date_is_left_to_the_host :
  Date_parse h "not-a-date" = fallbackParse h "not-a-date".
Proof.
  unfold Date_parse.
  replace (parseDateOnly "not-a-date") with (@None Z)
    by (vm_compute; reflexivity).
  reflexivity.
Qed.

(** A string [Date.parse] cannot read makes an invalid date, and an
    invalid date formats as the sentinel. *)
Lemma dateString_unparseable (s : string) :
  Date_parse h s = None -> dateString h s = "Invalid Date".
Proof.
  intros Hs. unfold dateString, newDate. now rewrite Hs.
Qed.

End LocalDates.

(* ================================================================== *)
(** ** The shape of the rendered card *)
(* ================================================================== *)

Lemma append_empty_r (s : string) : (s ++ "")%string = s.
Proof.
  induction s as [| c s IH]; [reflexivity |].
  cbn. now rewrite IH.
Qed.

Lemma textContent_single (ty : ElemType) (ps : list (string * PropVal string))
      (s : string) :
  textContent (Elem ty ps [Text s]) = s.
Proof. cbn. apply append_empty_r. Qed.

Section Shape.
Variable h : Host.
Variable p : NewsCardProps.

(** The card has one [<Image>], and these are its attributes. *)
Lemma image_element :
  elementsOfType (Comp Image) (NewsCard h p) =
  [ Elem (Comp Image)
         [ ("src", PStr (imageUrl p)); ("alt", PStr (title p));
           ("fill", PBool true); ("className", PStr "object-cover");
           ("priority", PBool true) ]
         [] ].
Proof. reflexivity. Qed.

(** The card has one [<h3>], holding the title. *)
Lemma title_element :
  elementsOfType (Intrinsic "h3") (NewsCard h p) =
  [ Elem (Intrinsic "h3")
         [("className", PStr "text-xl font-bold line-clamp-2")]
         [Text (title p)] ].
Proof. reflexivity. Qed.

(** The card has one [<p>], holding the summary. *)
Lemma summary_element :
  elementsOfType (Intrinsic "p") (NewsCard h p) =
  [ Elem (Intrinsic "p")
         [("className", PStr "text-gray-300 line-clamp-3")]
         [Text (summary p)] ].
Proof. reflexivity. Qed.

(** The card has one [<Badge>], holding the source. *)
Lemma badge_element :
  elementsOfType (Comp Badge) (NewsCard h p) =
  [ Elem (Comp Badge)
         [ ("variant", PStr "secondary");
           ("className", PStr "bg-white/20 text-white hover:bg-white/30") ]
         [Text (source p)] ].
Proof. reflexivity. Qed.

(** The card has one [<span>], holding the formatted date. *)
Lemma date_element :
  elementsOfType (Intrinsic "span") (NewsCard h p) =
  [ Elem (Intrinsic "span")
         [("className", PStr "text-sm text-gray-400")]
         [Text (dateString h (publicationDate p))] ].
Proof. reflexivity. Qed.

Lemma dateText_NewsCard :
  dateText (NewsCard h p) = [dateString h (publicationDate p)].
Proof.
  unfold dateText, textOf. rewrite date_element.
  cbn [map]. now rewrite textContent_single.
Qed.

Lemma badgeText_NewsCard : badgeText (NewsCard h p) = [source p].
Proof.
  unfold badgeText, textOf. rewrite badge_element.
  cbn [map]. now rewrite textContent_single.
Qed.

(** The rendered card is the symbolic card with every value resolved. *)
Lemma NewsCard_resolves_flow :
  mapNode (resolve h p) NewsCardFlow = NewsCard h p.
Proof. reflexivity. Qed.

End Shape.

(* ================================================================== *)
(** ** The claims *)
(* ================================================================== *)

(** *** C1: purity *)

(** Claim C1, as stated, fails: the same record rendered on two hosts that
    differ only in their time zone gives two different cards.  On a
    US-locale host on UTC the date of the sample article reads
    "1/15/2024", on a US-locale host on Eastern Standard Time "1/14/2024":
    the component reads the host's time zone (and locale), which is state
    outside its arguments. *)
Lemma C1_output_varies_with_host_time_zone :
  dateText (NewsCard hostUTC sampleArticle) = ["1/15/2024"] /\
  dateText (NewsCard hostEST sampleArticle) = ["1/14/2024"] /\
  NewsCard hostUTC sampleArticle <> NewsCard hostEST sampleArticle.
Proof.
  assert (HU : dateText (NewsCard hostUTC sampleArticle) = ["1/15/2024"])
    by (vm_compute; reflexivity).
  assert (HE : dateText (NewsCard hostEST sampleArticle) = ["1/14/2024"])
    by (vm_compute; reflexivity).
  split; [exact HU |]. split; [exact HE |].
  intro Heq. apply (f_equal dateText) in Heq.
  rewrite HU, HE in Heq. discriminate Heq.
Qed.

(** Claim C1, amended: on one host, two invocations with the same five
    field values give the same card; and across hosts, two such
    invocations give the same card exactly when the two hosts convert the
    publication date to the same text.  The date conversion is the only
    place where anything outside the arguments is read, and nothing is
    written. *)
Theorem C1_pure_up_to_host_date_conversion :
  forall (h1 h2 : Host) (p q : NewsCardProps),
    title p = title q ->
    imageUrl p = imageUrl q ->
    summary p = summary q ->
    publicationDate p = publicationDate q ->
    source p = source q ->
    NewsCard h1 p = NewsCard h1 q /\
    (NewsCard h1 p = NewsCard h2 q <->
     dateString h1 (publicationDate p) = dateString h2 (publicationDate q)).
Proof.
  intros h1 h2 p q Ht Hi Hs Hd Hsrc.
  assert (Hsame : forall h, NewsCard h p = NewsCard h q).
  { intros h. unfold NewsCard. now rewrite Ht, Hi, Hs, Hd, Hsrc. }
  split; [apply Hsame |].
  split.
  - intros Heq. apply (f_equal dateText) in Heq.
    rewrite !dateText_NewsCard in Heq. now injection Heq.
  - intros Hdate. rewrite <- (Hsame h2).
    unfold NewsCard, NewsCardJSX. rewrite Hd in Hdate. now rewrite Hd, Hdate.
Qed.

Lemma C1_pure_up_to_host_date_conversion_witness :
  NewsCard hostUTC sampleArticle = NewsCard hostUTC sampleArticle /\
  (NewsCard hostUTC sampleArticle = NewsCard hostEST sampleArticle <->
   dateString hostUTC "2024-01-15" = dateString hostEST "2024-01-15").
Proof.
  exact (C1_pure_up_to_host_date_conversion
           hostUTC hostEST sampleArticle sampleArticle
           eq_refl eq_refl eq_refl eq_refl eq_refl).
Defined.

(** *** C2: the date "2024-01-15" *)

(** Claim C2, as stated, fails on a host west of Greenwich: the sample
    article is dated "2024-01-15", and on a US-locale host on Eastern
    Standard Time the card shows "1/14/2024", which is not that locale's
    rendering "1/15/2024" of January 15, 2024. *)
Lemma C2_previous_day_west_of_Greenwich :
  publicationDate sampleArticle = "2024-01-15" /\
  dateText (NewsCard hostEST sampleArticle) = ["1/14/2024"] /\
  formatShortDate hostEST 2024 1 15 = "1/15/2024" /\
  dateText (NewsCard hostEST sampleArticle) <> [formatShortDate hostEST 2024 1 15].
Proof.
  assert (HE : dateText (NewsCard hostEST sampleArticle) = ["1/14/2024"])
    by (vm_compute; reflexivity).
  assert (HF : formatShortDate hostEST 2024 1 15 = "1/15/2024")
    by (vm_compute; reflexivity).
  split; [reflexivity |]. split; [exact HE |]. split; [exact HF |].
  rewrite HE, HF. intros Heq. discriminate Heq.
Qed.

(** Claim C2, amended: for [publicationDate = "2024-01-15"] the string is
    read as midnight UTC of that day, and the date text is the host
    locale's short form of the local calendar date of that instant:
    January 15, 2024 where the host's offset from UTC is zero or positive,
    January 14, 2024 where it is negative. *)
Theorem C2_date_text_is_local_date_of_UTC_midnight :
  forall (h : Host) (p : NewsCardProps),
    publicationDate p = "2024-01-15" ->
    newDate h (publicationDate p) = Some t_2024_01_15 /\
    ((0 <= LocalTZA h t_2024_01_15 < msPerDay)%Z ->
     dateText (NewsCard h p) = [formatShortDate h 2024 1 15]) /\
    ((- msPerDay <= LocalTZA h t_2024_01_15 < 0)%Z ->
     dateText (NewsCard h p) = [formatShortDate h 2024 1 14]).
Proof.
  intros h p Hd.
  rewrite dateText_NewsCard, Hd. unfold dateString.
  rewrite newDate_2024_01_15.
  split; [reflexivity |]. split; intros Ho; f_equal.
  - apply local_date_east; [vm_compute; reflexivity | exact Ho].
  - apply (local_date_west h 2024 1 15 t_2024_01_15);
      [vm_compute; reflexivity | vm_compute; reflexivity | exact Ho].
Qed.

Lemma C2_date_text_is_local_date_of_UTC_midnight_witness :
  dateText (NewsCard hostUTC sampleArticle) = ["1/15/2024"] /\
  dateText (NewsCard hostCET sampleArticle) = ["15.1.2024"] /\
  dateText (NewsCard hostEST sampleArticle) = ["1/14/2024"].
Proof.
  split; [| split].
  - apply (proj1 (proj2 (C2_date_text_is_local_date_of_UTC_midnight
                           hostUTC sampleArticle eq_refl))).
    vm_compute. split; [discriminate | reflexivity].
  - apply (proj1 (proj2 (C2_date_text_is_local_date_of_UTC_midnight
                           hostCET sampleArticle eq_refl))).
    vm_compute. split; [discriminate | reflexivity].
  - apply (proj2 (proj2 (C2_date_text_is_local_date_of_UTC_midnight
                           hostEST sampleArticle eq_refl))).
    vm_compute. split; [discriminate | reflexivity].
Defined.

(** *** C3: a date that cannot be parsed *)

(** Claim C3: when [Date.parse] cannot read the publication date, the
    component still returns the whole card, the one of the template with
    "Invalid Date" where the date goes: nothing is thrown, nothing is
    replaced or guarded. *)
Theorem C3_unparseable_date_renders_invalid_date :
  forall (h : Host) (p : NewsCardProps),
    Date_parse h (publicationDate p) = None ->
    NewsCard h p =
      NewsCardJSX (fun s => s) (fun _ => "Invalid Date")
                  (title p) (imageUrl p) (summary p) (publicationDate p)
                  (source p) /\
    dateText (NewsCard h p) = ["Invalid Date"].
Proof.
  intros h p Hnan.
  pose proof (dateString_unparseable h _ Hnan) as Hs.
  split.
  - unfold NewsCard, NewsCardJSX. now rewrite Hs.
  - now rewrite dateText_NewsCard, Hs.
Qed.

Lemma C3_unparseable_date_renders_invalid_date_witness :
  dateText (NewsCard hostUTC (withPublicationDate "not-a-date" sampleArticle))
  = ["Invalid Date"].
Proof.
  apply (C3_unparseable_date_renders_invalid_date
           hostUTC (withPublicationDate "not-a-date" sampleArticle)).
  vm_compute. reflexivity.
Defined.

(** *** C4: the badge *)

(** Claim C4: the card has exactly one badge; its only child is the source
    string as given, so the text it shows is the source, character for
    character; for the source "Reuters" it is "Reuters". *)
Theorem C4_badge_shows_source_verbatim :
  forall (h : Host) (p : NewsCardProps),
    map children (elementsOfType (Comp Badge) (NewsCard h p))
    = [[Text (source p)]] /\
    badgeText (NewsCard h p) = [source p] /\
    forall t i s d : string,
      badgeText (NewsCard h (mkProps t i s d "Reuters")) = ["Reuters"].
Proof.
  intros h p. split; [| split].
  - now rewrite badge_element.
  - apply badgeText_NewsCard.
  - intros t i s d. now rewrite badgeText_NewsCard.
Qed.

(** *** C5 and C6: clamped title and summary *)

(** Claim C5: the title is the text of the card's only [<h3>], which sits
    in the header and carries the two-line clamp: of the [line-clamp-*]
    utilities its class list has [line-clamp-2] and no other. *)
Theorem C5_title_carries_two_line_clamp :
  forall (h : Host) (p : NewsCardProps),
    let t := Elem (Intrinsic "h3")
                  [("className", PStr "text-xl font-bold line-clamp-2")]
                  [Text (title p)] in
    elementsOfType (Intrinsic "h3") (NewsCard h p) = [t] /\
    option_map children (region Header (NewsCard h p)) = Some [t] /\
    textContent t = title p /\
    clampClasses t = ["line-clamp-2"].
Proof.
  intros h p t. split; [apply title_element |].
  split; [reflexivity |].
  split; [apply textContent_single |].
  vm_compute. reflexivity.
Qed.

(** Claim C6: the summary is the text of the card's only [<p>], the first
    element of the body, and carries the three-line clamp: [line-clamp-3]
    and no other [line-clamp-*] utility, the title's clamp with 3 for 2. *)
Theorem C6_summary_carries_three_line_clamp :
  forall (h : Host) (p : NewsCardProps),
    let s := Elem (Intrinsic "p")
                  [("className", PStr "text-gray-300 line-clamp-3")]
                  [Text (summary p)] in
    elementsOfType (Intrinsic "p") (NewsCard h p) = [s] /\
    option_map (child 0) (region Body (NewsCard h p)) = Some (Some s) /\
    textContent s = summary p /\
    clampClasses s = ["line-clamp-" ++ "3"] /\
    map clampClasses (elementsOfType (Intrinsic "h3") (NewsCard h p))
    = [["line-clamp-" ++ "2"]].
Proof.
  intros h p s. split; [apply summary_element |].
  split; [reflexivity |].
  split; [apply textContent_single |].
  split; [vm_compute; reflexivity |].
  rewrite title_element. vm_compute. reflexivity.
Qed.

(** *** C7: an empty image URL *)

(** Claim C7: with [imageUrl = ""] the component returns the whole card
    all the same, with the empty string as the [src] of its [<Image>]; the
    component never inspects the URL: the card for any URL is the card for
    another one with the [src] attribute exchanged, so what becomes of an
    empty reference is up to [<Image>]. *)
Theorem C7_empty_imageUrl_still_renders :
  forall (h : Host) (p : NewsCardProps),
    imageUrl p = "" ->
    NewsCard h p =
      NewsCardJSX (fun s => s) (dateString h)
                  (title p) "" (summary p) (publicationDate p) (source p) /\
    map (prop "src") (elementsOfType (Comp Image) (NewsCard h p))
    = [Some (PStr "")] /\
    forall u : string,
      NewsCard h (withImageUrl u p)
      = setPropOn (Comp Image) "src" (PStr u) (NewsCard h p).
Proof.
  intros h p Hempty. split; [| split].
  - unfold NewsCard. now rewrite Hempty.
  - rewrite image_element, Hempty. reflexivity.
  - intros u. reflexivity.
Qed.

Lemma C7_empty_imageUrl_still_renders_witness :
  map (prop "src")
      (elementsOfType (Comp Image)
                      (NewsCard hostUTC (withImageUrl "" sampleArticle)))
  = [Some (PStr "")].
Proof.
  apply (C7_empty_imageUrl_still_renders
           hostUTC (withImageUrl "" sampleArticle)).
  reflexivity.
Defined.

(** *** C8: fields and regions *)

(** Claim C8, as stated, fails for the title: it is mapped to two regions,
    the media region (as the image's [alt]) and the header.  On the sample
    article, "Markets rally" is among the values of both. *)
Lemma C8_title_reaches_two_regions :
  regionsOf FTitle = [Media; Header] /\
  In (title sampleArticle) (regionValues Media (NewsCard hostUTC sampleArticle)) /\
  In (title sampleArticle) (regionValues Header (NewsCard hostUTC sampleArticle)).
Proof.
  split; [vm_compute; reflexivity |].
  split; cbn; tauto.
Qed.

(** Claim C8, amended: the image URL is mapped to the media region only,
    the summary, the source and the date to the body only, and the title
    to the header and, as alternative text, to the media region; every
    value of the card is a literal of the source or a field copied as it
    is, but for one, the date text computed from the publication date; and
    the card returned is this symbolic card with its values filled in,
    a function of the input and the host with no effect. *)
Theorem C8_fields_to_regions :
  regionsOf FImageUrl = [Media] /\
  regionsOf FTitle = [Media; Header] /\
  regionsOf FSummary = [Body] /\
  regionsOf FSource = [Body] /\
  regionsOf FPublicationDate = [Body] /\
  filter isComputed (values NewsCardFlow)
  = [DateTextOf (FromField FPublicationDate)] /\
  forall (h : Host) (p : NewsCardProps),
    NewsCard h p = mapNode (resolve h p) NewsCardFlow.
Proof.
  repeat split; try (vm_compute; reflexivity).
Qed.

(** *** C9: the image *)

(** The sizing utilities, read on a few class names. *)
Example size_h_48 : sizeUtility "h-" "h-48" = Some (Quarters 48).
Proof. vm_compute. reflexivity. Qed.

Example size_w_full : sizeUtility "w-" "w-full" = Some (Percent 100).
Proof. vm_compute. reflexivity. Qed.

Example size_not_a_height :
  map (sizeUtility "h-") ["hover:scale-[1.02]"; "h-"; "h-screen"; "w-full"]
  = [None; None; None; None].
Proof. vm_compute. reflexivity. Qed.

Example fixed_sides_fix_the_aspect :
  hasFixedAspect (Elem (Intrinsic "div") [("className", PStr "h-48 w-64")] [])
  = true.
Proof. vm_compute. reflexivity. Qed.

Example aspect_utility_fixes_the_aspect :
  hasFixedAspect
    (Elem (Intrinsic "div") [("className", PStr "relative aspect-video w-full")] [])
  = true.
Proof. vm_compute. reflexivity. Qed.

(** Claim C9, as stated, fails in one word: the top region has no fixed
    aspect.  It is [relative h-48 w-full], a box of fixed height and of
    the width of the card, and no element of the card carries an
    [aspect-*] utility: at a root font size of 16 pixels the region of the
    sample article is 320 by 192 in a card 320 pixels wide and 640 by 192
    in one 640 pixels wide, two different ratios. *)
Lemma C9_top_region_has_fixed_height_not_fixed_aspect :
  option_map classList (region Media (NewsCard hostUTC sampleArticle))
  = Some ["relative"; "h-48"; "w-full"] /\
  flat_map aspectClasses (descendants (NewsCard hostUTC sampleArticle)) = [] /\
  option_map hasFixedAspect (region Media (NewsCard hostUTC sampleArticle))
  = Some false /\
  option_map (boxOf 16 320 0) (region Media (NewsCard hostUTC sampleArticle))
  = Some (Some (320, 192)%Z) /\
  option_map (boxOf 16 640 0) (region Media (NewsCard hostUTC sampleArticle))
  = Some (Some (640, 192)%Z) /\
  (320 * 192 <> 640 * 192)%Z.
Proof.
  split; [vm_compute; reflexivity |].
  split; [vm_compute; reflexivity |].
  split; [vm_compute; reflexivity |].
  split; [vm_compute; reflexivity |].
  split; [vm_compute; reflexivity |].
  intros Heq. discriminate Heq.
Qed.

(** Claim C9, amended: the first child of the card, its top region, is a
    [<div>] of the full width of the card and of a fixed height of 12rem
    ([relative h-48 w-full]), with no fixed aspect ratio, that holds the
    card's only [<Image>]: its [src] is the image URL given, it fills the
    region ([fill]), is fitted by cropping ([object-cover]), and is loaded
    with priority ([priority], with no [loading] attribute to defer it). *)
Theorem C9_image_fills_top_region_with_priority :
  forall (h : Host) (p : NewsCardProps),
    let img := Elem (Comp Image)
                    [ ("src", PStr (imageUrl p)); ("alt", PStr (title p));
                      ("fill", PBool true); ("className", PStr "object-cover");
                      ("priority", PBool true) ]
                    [] in
    regionIndex Media = 0%nat /\
    region Media (NewsCard h p)
    = Some (Elem (Intrinsic "div")
                 [("className", PStr "relative h-48 w-full")] [img]) /\
    option_map classList (region Media (NewsCard h p))
    = Some ["relative"; "h-48"; "w-full"] /\
    elementsOfType (Comp Image) (NewsCard h p) = [img] /\
    prop "src" img = Some (PStr (imageUrl p)) /\
    prop "fill" img = Some (PBool true) /\
    classList img = ["object-cover"] /\
    prop "priority" img = Some (PBool true) /\
    prop "loading" img = None /\
    option_map widths (region Media (NewsCard h p)) = Some [Percent 100] /\
    option_map heights (region Media (NewsCard h p)) = Some [Quarters 48] /\
    option_map hasFixedAspect (region Media (NewsCard h p)) = Some false /\
    flat_map aspectClasses (descendants (NewsCard h p)) = [] /\
    forall root cw ch : Z,
      option_map (boxOf root cw ch) (region Media (NewsCard h p))
      = Some (Some (cw, 12 * root)%Z).
Proof.
  intros h p img.
  split; [reflexivity |].
  split; [reflexivity |].
  split; [vm_compute; reflexivity |].
  split; [apply image_element |].
  split; [vm_compute; reflexivity |].
  split; [vm_compute; reflexivity |].
  split; [vm_compute; reflexivity |].
  split; [vm_compute; reflexivity |].
  split; [vm_compute; reflexivity |].
  assert (HW : option_map widths (region Media (NewsCard h p))
               = Some [Percent 100]) by (vm_compute; reflexivity).
  assert (HH : option_map heights (region Media (NewsCard h p))
               = Some [Quarters 48]) by (vm_compute; reflexivity).
  split; [exact HW |]. split; [exact HH |].
  split; [vm_compute; reflexivity |].
  split.
  - unfold NewsCard, NewsCardJSX.
    cbn [descendants app flat_map]. vm_compute. reflexivity.
  - intros root cw ch.
    set (top := Elem (Intrinsic "div")
                     [("className", PStr "relative h-48 w-full")] [img]).
    change (region Media (NewsCard h p)) with (Some top).
    cbn [option_map]. unfold boxOf.
    replace (widths top) with [Percent 100] by (vm_compute; reflexivity).
    replace (heights top) with [Quarters 48] by (vm_compute; reflexivity).
    unfold extentPx.
    rewrite Z.div_mul by discriminate.
    replace (48 * root)%Z with (12 * root * 4)%Z by lia.
    rewrite Z.div_mul by discriminate. reflexivity.
Qed.

(** *** C10: the title as alternative text *)

(** Claim C10: the title is given as it is as the [alt] of the image, and
    is the text of the header's [<h3>]: of the values of the card, two
    come from the title, one in the media region and one in the header. *)
Theorem C10_title_is_also_alt_text :
  forall (h : Host) (p : NewsCardProps),
    map (prop "alt") (elementsOfType (Comp Image) (NewsCard h p))
    = [Some (PStr (title p))] /\
    textOf (Intrinsic "h3") (NewsCard h p) = [title p] /\
    occurrences FTitle NewsCardFlow = 2%nat /\
    regionOccurrences FTitle Media = 1%nat /\
    regionOccurrences FTitle Header = 1%nat /\
    regionOccurrences FTitle Body = 0%nat.
Proof.
  intros h p.
  split; [now rewrite image_element |].
  split.
  - unfold textOf. rewrite title_element. cbn [map].
    now rewrite textContent_single.
  - repeat split; vm_compute; reflexivity.
Qed.


(* ================================================================== *)
(** ** Further properties: date-only publication dates *)
(* ================================================================== *)

Section IsoDates.
Local Open Scope Z_scope.

(** The character of a digit reads back as that digit. *)
Lemma digit_digitChar (k : Z) : 0 <= k <= 9 -> digit (digitChar k) = Some k.
Proof.
  intros Hk.
  assert (Hc : k = 0 \/ k = 1 \/ k = 2 \/ k = 3 \/ k = 4 \/ k = 5 \/ k = 6 \/
               k = 7 \/ k = 8 \/ k = 9) by lia.
  repeat (destruct Hc as [-> | Hc]; [reflexivity |]). now subst k.
Qed.

(** A year written on four digits reads back as that year. *)
Lemma digits_pad4 (y : Z) :
  0 <= y <= 9999 -> digits 0 (list_ascii_of_string (pad4 y)) = Some y.
Proof.
  intros Hy. unfold pad4. cbn [list_ascii_of_string digits].
  rewrite !digit_digitChar by floor_arith.
  f_equal. floor_arith.
Qed.

(** A month or day written on two digits reads back as itself. *)
Lemma digits_pad2 (n : Z) :
  0 <= n <= 99 -> digits 0 (list_ascii_of_string (pad2 n)) = Some n.
Proof.
  intros Hn. unfold pad2. cbn [list_ascii_of_string digits].
  rewrite !digit_digitChar by floor_arith.
  f_equal. floor_arith.
Qed.

(** Writing a date as [YYYY-MM-DD] and parsing it gives midnight UTC of
    that date (and nothing where the date does not exist). *)
Lemma parseDateOnly_isoDate (y m d : Z) :
  0 <= y <= 9999 -> 0 <= m <= 99 -> 0 <= d <= 99 ->
  parseDateOnly (isoDate y m d) = utcMidnight y m d.
Proof.
  intros Hy Hm Hd.
  pose proof (digits_pad4 y Hy) as Py.
  pose proof (digits_pad2 m Hm) as Pm.
  pose proof (digits_pad2 d Hd) as Pd.
  unfold pad4, pad2 in *. cbn [list_ascii_of_string] in Py, Pm, Pd.
  unfold parseDateOnly, isoDate, pad4, pad2.
  cbn [append list_ascii_of_string].
  rewrite Py, Pm, Pd. reflexivity.
Qed.

Lemma leapDays_cases (y : Z) : leapDays y = 0 \/ leapDays y = 1.
Proof.
  unfold leapDays, DaysInYear.
  destruct (y mod 4 =? 0), (y mod 100 =? 0), (y mod 400 =? 0); cbn; lia.
Qed.

(** Every month has from 28 to 31 days. *)
Lemma DaysInMonth_bounds (y m : Z) :
  1 <= m <= 12 -> 28 <= DaysInMonth y m <= 31.
Proof.
  intros Hm. unfold DaysInMonth.
  assert (Hc : m = 1 \/ m = 2 \/ m = 3 \/ m = 4 \/ m = 5 \/ m = 6 \/ m = 7 \/
               m = 8 \/ m = 9 \/ m = 10 \/ m = 11 \/ m = 12) by lia.
  destruct (leapDays_cases y) as [-> | ->];
    repeat (destruct Hc as [Hc | Hc]); subst m; eval_month_table; lia.
Qed.

Lemma utcMidnight_valid (y m d : Z) :
  1 <= m <= 12 -> 1 <= d <= DaysInMonth y m ->
  utcMidnight y m d = Some (MakeDate (MakeDay y (m - 1) d) 0).
Proof.
  intros Hm Hd. unfold utcMidnight.
  rewrite (proj2 (Z.leb_le 1 m)), (proj2 (Z.leb_le m 12)),
          (proj2 (Z.leb_le 1 d)), (proj2 (Z.leb_le d _)) by lia.
  reflexivity.
Qed.

(** Midnight UTC of a day of the years 0 to 9999 is within the range of
    [Date]. *)
Lemma TimeClip_utcMidnight (y m d t : Z) :
  0 <= y <= 9999 -> utcMidnight y m d = Some t -> TimeClip t = Some t.
Proof.
  intros Hy Ht.
  destruct (civil_roundtrip y m d t Ht) as (HY & _).
  pose proof (YearFromTime_spec t) as [Hlo Hhi]. rewrite HY in Hlo, Hhi.
  pose proof (DayFromYear_mono 0 y ltac:(lia)) as H0.
  pose proof (DayFromYear_mono (y + 1) 10000 ltac:(lia)) as H1.
  change (DayFromYear 0) with (-719528) in H0.
  change (DayFromYear 10000) with 2932897 in H1.
  unfold TimeFromYear, msPerDay in Hlo, Hhi.
  unfold TimeClip. rewrite (proj2 (Z.leb_le _ _)) by lia. reflexivity.
Qed.

(** [new Date] of an existing date written as [YYYY-MM-DD] is its
    midnight UTC, on every host. *)
Lemma newDate_isoDate (h : Host) (y m d : Z) :
  validDate y m d ->
  newDate h (isoDate y m d) = Some (MakeDate (MakeDay y (m - 1) d) 0).
Proof.
  intros (Hy & Hm & Hd).
  pose proof (DaysInMonth_bounds y m Hm) as Hb.
  pose proof (utcMidnight_valid y m d Hm Hd) as Hu.
  unfold newDate, Date_parse.
  rewrite parseDateOnly_isoDate, Hu by lia.
  apply (TimeClip_utcMidnight y m d); assumption.
Qed.

(** The day before starts one day of milliseconds earlier. *)
Lemma utcMidnight_dayBefore (y m d : Z) :
  1 <= m <= 12 -> 1 <= d <= DaysInMonth y m ->
  let '(y', m', d') := dayBefore y m d in
  utcMidnight y' m' d' = Some (MakeDate (MakeDay y (m - 1) d) 0 - msPerDay).
Proof.
  intros Hm Hd. unfold dayBefore.
  destruct (Z.ltb_spec 1 d) as [Hd1 | Hd1].
  - rewrite utcMidnight_valid by lia. f_equal.
    unfold MakeDate, MakeDay, msPerDay. lia.
  - assert (d = 1) by lia. subst d.
    destruct (Z.ltb_spec 1 m) as [Hm1 | Hm1].
    + pose proof (DaysInMonth_bounds y (m - 1) ltac:(lia)) as Hb.
      rewrite utcMidnight_valid by lia. f_equal.
      unfold MakeDate, MakeDay, DaysInMonth, msPerDay.
      rewrite !Z.div_small, !Z.mod_small, !Z.add_0_r by lia. lia.
    + assert (m = 1) by lia. subst m.
      rewrite utcMidnight_valid
        by (try lia; pose proof (DaysInMonth_bounds (y - 1) 12 ltac:(lia));
            unfold DaysInMonth in *; destruct (leapDays_cases (y - 1)) as [E | E];
            rewrite E in *; eval_month_table; lia).
      f_equal. unfold MakeDate, MakeDay, msPerDay.
      change ((12 - 1) / 12) with 0. change ((12 - 1) mod 12) with 11.
      change ((1 - 1) / 12) with 0. change ((1 - 1) mod 12) with 0.
      pose proof (DayFromYear_step (y - 1)) as Hs.
      replace (y - 1 + 1) with y in Hs by lia.
      rewrite !Z.add_0_r, Hs.
      replace (DaysInYear (y - 1)) with (365 + leapDays (y - 1))
        by (unfold leapDays; lia).
      destruct (leapDays_cases (y - 1)) as [E | E]; rewrite E;
        eval_month_table; lia.
Qed.
End IsoDates.

(** Two strings that are date-only forms of the same instant give the
    same date text. *)
Lemma dateString_date_only (h : Host) (s s' : string) (t : Z) :
  parseDateOnly s = Some t -> parseDateOnly s' = Some t ->
  dateString h s = dateString h s'.
Proof.
  intros Hs Hs'. unfold dateString, newDate, Date_parse. now rewrite Hs, Hs'.
Qed.


(** Property X1: on a host at or east of Greenwich (offset from UTC from 0
    up to 24 hours), a publication date written as [YYYY-MM-DD] is shown
    as that very calendar date, in the host locale's short form, whatever
    the host's fallback parser does. *)
Theorem X1_date_only_shown_as_written_east_of_Greenwich :
  forall (h : Host) (p : NewsCardProps) (y m d : Z),
    validDate y m d ->
    publicationDate p = isoDate y m d ->
    (0 <= LocalTZA h (MakeDate (MakeDay y (m - 1) d) 0) < msPerDay)%Z ->
    dateText (NewsCard h p) = [formatShortDate h y m d].
Proof.
  intros h p y m d Hv Hp Ho.
  rewrite dateText_NewsCard, Hp. unfold dateString.
  rewrite (newDate_isoDate h y m d Hv).
  destruct Hv as (_ & Hm & Hd).
  f_equal. apply local_date_east; [now apply utcMidnight_valid | exact Ho].
Qed.

Lemma X1_date_only_shown_as_written_east_of_Greenwich_witness :
  dateText (NewsCard hostCET (withPublicationDate "2024-02-29" sampleArticle))
  = ["29.2.2024"].
Proof.
  apply (X1_date_only_shown_as_written_east_of_Greenwich
           hostCET (withPublicationDate "2024-02-29" sampleArticle) 2024 2 29).
  - unfold validDate. vm_compute. repeat split; discriminate.
  - reflexivity.
  - vm_compute. split; [discriminate | reflexivity].
Defined.

(** Property X2: on a host west of Greenwich (a negative offset from UTC,
    down to 24 hours), a publication date written as [YYYY-MM-DD] is shown
    as the calendar day before it, across month and year ends and leap
    days alike. *)
Theorem X2_date_only_shown_a_day_early_west_of_Greenwich :
  forall (h : Host) (p : NewsCardProps) (y m d : Z),
    validDate y m d ->
    publicationDate p = isoDate y m d ->
    (- msPerDay <= LocalTZA h (MakeDate (MakeDay y (m - 1) d) 0) < 0)%Z ->
    dateText (NewsCard h p)
    = [let '(y', m', d') := dayBefore y m d in formatShortDate h y' m' d'].
Proof.
  intros h p y m d Hv Hp Ho.
  rewrite dateText_NewsCard, Hp. unfold dateString.
  rewrite (newDate_isoDate h y m d Hv).
  destruct Hv as (_ & Hm & Hd).
  pose proof (utcMidnight_dayBefore y m d Hm Hd) as Hb.
  destruct (dayBefore y m d) as [[y' m'] d'].
  f_equal.
  apply (local_date_west h y m d _ y' m' d');
    [now apply utcMidnight_valid | exact Hb | exact Ho].
Qed.

Lemma X2_date_only_shown_a_day_early_west_of_Greenwich_witness :
  dateText (NewsCard hostEST (withPublicationDate "2024-03-01" sampleArticle))
  = ["2/29/2024"].
Proof.
  apply (X2_date_only_shown_a_day_early_west_of_Greenwich
           hostEST (withPublicationDate "2024-03-01" sampleArticle) 2024 3 1).
  - unfold validDate. vm_compute. repeat split; discriminate.
  - reflexivity.
  - vm_compute. split; [discriminate | reflexivity].
Defined.

(** Property X3: a host at or east of Greenwich and a host west of it
    render the same record with a [YYYY-MM-DD] publication date into two
    different cards, as soon as the date and the day before it are
    written differently in the two locales' short forms: what a server in
    one zone renders is not what a browser in the other renders. *)
Theorem X3_hosts_across_Greenwich_render_different_cards :
  forall (h1 h2 : Host) (p : NewsCardProps) (y m d : Z),
    validDate y m d ->
    publicationDate p = isoDate y m d ->
    (0 <= LocalTZA h1 (MakeDate (MakeDay y (m - 1) d) 0) < msPerDay)%Z ->
    (- msPerDay <= LocalTZA h2 (MakeDate (MakeDay y (m - 1) d) 0) < 0)%Z ->
    (let '(y', m', d') := dayBefore y m d in
     formatShortDate h1 y m d <> formatShortDate h2 y' m' d') ->
    NewsCard h1 p <> NewsCard h2 p.
Proof.
  intros h1 h2 p y m d Hv Hp Ho1 Ho2 Hfmt Heq.
  apply (f_equal dateText) in Heq.
  rewrite !dateText_NewsCard, Hp in Heq. unfold dateString in Heq.
  rewrite !(newDate_isoDate _ y m d Hv) in Heq.
  destruct Hv as (_ & Hm & Hd).
  pose proof (utcMidnight_dayBefore y m d Hm Hd) as Hb.
  destruct (dayBefore y m d) as [[y' m'] d'].
  rewrite (local_date_east h1 y m d) in Heq
    by (try exact Ho1; now apply utcMidnight_valid).
  rewrite (local_date_west h2 y m d _ y' m' d') in Heq
    by (try exact Ho2; try exact Hb; now apply utcMidnight_valid).
  injection Heq as Heq. exact (Hfmt Heq).
Qed.

Lemma X3_hosts_across_Greenwich_render_different_cards_witness :
  NewsCard hostUTC sampleArticle <> NewsCard hostEST sampleArticle.
Proof.
  apply (X3_hosts_across_Greenwich_render_different_cards
           hostUTC hostEST sampleArticle 2024 1 15).
  - unfold validDate. vm_compute. repeat split; discriminate.
  - reflexivity.
  - vm_compute. split; [discriminate | reflexivity].
  - vm_compute. split; [discriminate | reflexivity].
  - vm_compute. intros Heq. discriminate Heq.
Defined.

(** Property X4: a publication date that gives the year only, or the year
    and the month, renders the same card as the first of January of that
    year, or the first of that month: the parts left out default to 1. *)
Theorem X4_year_and_year_month_default_to_the_first :
  forall (h : Host) (p : NewsCardProps) (y m : Z),
    (0 <= y <= 9999)%Z -> (1 <= m <= 12)%Z ->
    NewsCard h (withPublicationDate (pad4 y) p)
    = NewsCard h (withPublicationDate (isoDate y 1 1) p) /\
    NewsCard h (withPublicationDate (pad4 y ++ "-" ++ pad2 m) p)
    = NewsCard h (withPublicationDate (isoDate y m 1) p).
Proof.
  intros h p y m Hy Hm.
  pose proof (digits_pad4 y Hy) as Py.
  pose proof (digits_pad2 m ltac:(lia)) as Pm.
  pose proof (DaysInMonth_bounds y 1 ltac:(lia)) as B1.
  pose proof (DaysInMonth_bounds y m Hm) as Bm.
  unfold pad4, pad2 in Py, Pm. cbn [list_ascii_of_string] in Py, Pm.
  assert (E1 : dateString h (pad4 y) = dateString h (isoDate y 1 1)).
  { apply (dateString_date_only h _ _ (MakeDate (MakeDay y (1 - 1) 1) 0)).
    - unfold parseDateOnly, pad4. cbn [list_ascii_of_string].
      rewrite Py. apply utcMidnight_valid; lia.
    - rewrite parseDateOnly_isoDate by lia. apply utcMidnight_valid; lia. }
  assert (E2 : dateString h (pad4 y ++ "-" ++ pad2 m)
               = dateString h (isoDate y m 1)).
  { apply (dateString_date_only h _ _ (MakeDate (MakeDay y (m - 1) 1) 0)).
    - unfold parseDateOnly, pad4, pad2. cbn [append list_ascii_of_string].
      rewrite Py, Pm. change (isDash "-") with true. cbv iota.
      apply utcMidnight_valid; lia.
    - rewrite parseDateOnly_isoDate by lia. apply utcMidnight_valid; lia. }
  split; unfold NewsCard, NewsCardJSX, withPublicationDate;
    cbn [publicationDate title imageUrl summary source].
  - now rewrite E1.
  - now rewrite E2.
Qed.

Lemma X4_year_and_year_month_default_to_the_first_witness :
  NewsCard hostEST (withPublicationDate "2024" sampleArticle)
  = NewsCard hostEST (withPublicationDate "2024-01-01" sampleArticle) /\
  NewsCard hostEST (withPublicationDate "2024-03" sampleArticle)
  = NewsCard hostEST (withPublicationDate "2024-03-01" sampleArticle).
Proof.
  apply (X4_year_and_year_month_default_to_the_first
           hostEST sampleArticle 2024 3); lia.
Defined.

(* ================================================================== *)
(** ** Further properties: what the card keeps and what it fixes *)
(* ================================================================== *)

(** Property X5: the card keeps its input apart: two cards are equal only
    if their titles, image URLs, summaries and sources are equal and their
    publication dates are converted to the same text.  (With C1, equal
    cards are exactly the cards of such inputs.) *)
Theorem X5_equal_cards_have_equal_fields :
  forall (h1 h2 : Host) (p q : NewsCardProps),
    NewsCard h1 p = NewsCard h2 q ->
    title p = title q /\ imageUrl p = imageUrl q /\
    summary p = summary q /\ source p = source q /\
    dateString h1 (publicationDate p) = dateString h2 (publicationDate q).
Proof.
  intros h1 h2 p q Heq.
  pose proof (f_equal (elementsOfType (Comp Image)) Heq) as Hi.
  pose proof (f_equal (elementsOfType (Intrinsic "p")) Heq) as Hs.
  pose proof (f_equal badgeText Heq) as Hb.
  pose proof (f_equal dateText Heq) as Hd.
  rewrite !image_element in Hi. rewrite !summary_element in Hs.
  rewrite !badgeText_NewsCard in Hb. rewrite !dateText_NewsCard in Hd.
  injection Hi as Hurl Halt. injection Hs as Hsum.
  injection Hb as Hsrc. injection Hd as Hdate.
  repeat split; assumption.
Qed.

Lemma X5_equal_cards_have_equal_fields_witness :
  title (withPublicationDate "2024" sampleArticle)
  = title (withPublicationDate "2024-01-01" sampleArticle) /\
  imageUrl (withPublicationDate "2024" sampleArticle)
  = imageUrl (withPublicationDate "2024-01-01" sampleArticle) /\
  summary (withPublicationDate "2024" sampleArticle)
  = summary (withPublicationDate "2024-01-01" sampleArticle) /\
  source (withPublicationDate "2024" sampleArticle)
  = source (withPublicationDate "2024-01-01" sampleArticle) /\
  dateString hostUTC "2024" = dateString hostUTC "2024-01-01".
Proof.
  apply (X5_equal_cards_have_equal_fields
           hostUTC hostUTC
           (withPublicationDate "2024" sampleArticle)
           (withPublicationDate "2024-01-01" sampleArticle)).
  vm_compute. reflexivity.
Defined.

(** Property X6: the input never reaches the structure or the styling of
    the card.  With the text children and the [src] and [alt] attributes
    emptied, the cards of any two inputs on any two hosts are the same
    tree: same elements, same nesting, same class names, same flags. *)
Theorem X6_structure_and_styling_do_not_depend_on_input :
  forall (h1 h2 : Host) (p q : NewsCardProps),
    blank (NewsCard h1 p) = blank (NewsCard h2 q) /\
    map nodeType (descendants (NewsCard h1 p))
    = map nodeType (descendants (NewsCard h2 q)) /\
    map classList (descendants (NewsCard h1 p))
    = map classList (descendants (NewsCard h2 q)).
Proof.
  intros h1 h2 p q.
  split; [reflexivity |].
  split; [reflexivity |].
  unfold NewsCard, NewsCardJSX.
  cbn [descendants map app classList prop props lookup String.eqb Ascii.eqb
       Bool.eqb].
  reflexivity.
Qed.

(** Property X7: read from top to bottom, the text of the card is the
    title, the summary, the source and the date text, in this order and
    with nothing between them; the image URL and the alternative text are
    no part of it. *)
Theorem X7_text_of_the_card_in_reading_order :
  forall (h : Host) (p : NewsCardProps),
    textContent (NewsCard h p)
    = title p ++ summary p ++ source p ++ dateString h (publicationDate p).
Proof.
  intros h p. unfold NewsCard, NewsCardJSX. cbn [textContent].
  rewrite !append_empty_r. cbn [append].
  reflexivity.
Qed.
